(** * Client side of the scheduler manager RPC API

    A shallow embedding of [cinder/scheduler/rpcapi.py] (class
    [SchedulerAPI]) together with the properties of its versioned call
    dispatch: which envelope every public method hands to the messaging
    client, under which negotiated capability, and with which effects. *)

From Stdlib Require Import ZArith Lia Ascii.
From stdpp Require Import base option strings pretty list gmap.

Open Scope string_scope.
#[local] Set Warnings "-register-all".

(** ** Python values *)

(** The values that travel through the facade.  Domain objects (volumes,
    groups, request contexts) are handles: two uses of one handle denote
    one shared object, whose state lives outside the value. *)
Inductive pyval : Type :=
  | PyNone
  | PyBool (b : bool)
  | PyInt (n : Z)
  | PyStr (s : string)
  | PyList (items : list pyval)
  | PyDict (items : list (string * pyval))
  | PyDatetime (t : Z)
  | PyObj (handle : positive).

(** Truth value of an object, as tested by [x or y]. *)
Definition py_truthy (v : pyval) : bool :=
  match v with
  | PyNone => false
  | PyBool b => b
  | PyInt n => negb (n =? 0)%Z
  | PyStr s => negb (String.eqb s "")
  | PyList items => negb (Nat.eqb (length items) 0)
  | PyDict items => negb (Nat.eqb (length items) 0)
  | PyDatetime _ => true
  | PyObj _ => true
  end.

Fixpoint py_chars (s : string) : list pyval :=
  match s with
  | EmptyString => []
  | String c rest => PyStr (String c EmptyString) :: py_chars rest
  end.

(** The keyword arguments of a message: a dict with string keys. *)
Abbreviation kwargs := (gmap string pyval).

(** ** Exceptions and results *)

Inductive exn : Type :=
  | ServiceTooOld (msg : string)
  | TypeError (msg : string)
  | AttributeError (msg : string)
  | RPCVersionCapError (version : string).

Inductive result (A : Type) : Type :=
  | Return (a : A)
  | Raise (e : exn).
Arguments Return {A} a.
Arguments Raise {A} e.

(** [type(v).__name__], as it shows in the messages of the interpreter. *)
Definition py_type_name (v : pyval) : string :=
  match v with
  | PyNone => "NoneType"
  | PyBool _ => "bool"
  | PyInt _ => "int"
  | PyStr _ => "str"
  | PyList _ => "list"
  | PyDict _ => "dict"
  | PyDatetime _ => "datetime.datetime"
  | PyObj _ => "object"
  end.

(** [iter(v)]: the elements a [for] loop over [v] visits; values that are
    not iterable raise [TypeError]. *)
Definition py_iter (v : pyval) : result (list pyval) :=
  match v with
  | PyList items => Return items
  | PyDict items => Return (map (fun kv => PyStr (fst kv)) items)
  | PyStr s => Return (py_chars s)
  | PyNone => Raise (TypeError "'NoneType' object is not iterable")
  | PyBool _ => Raise (TypeError "'bool' object is not iterable")
  | PyInt _ => Raise (TypeError "'int' object is not iterable")
  | PyDatetime _ =>
      Raise (TypeError "'datetime.datetime' object is not iterable")
  | PyObj _ => Raise (TypeError "object is not iterable")
  end.

(** ** The messaging client and the world it acts on *)

Inductive delivery : Type := Cast | Call | FanoutCast.

(** What the messaging client is handed by one [cast] or [call]. *)
Record envelope : Type := Envelope {
  env_ctxt : pyval;
  env_version : string;
  env_mode : delivery;
  env_method : string;
  env_args : kwargs
}.

(** Effects that leave the facade, in the order they happen. *)
Inductive event : Type :=
  | CreateWorker (volume : pyval)
  | Sent (e : envelope).

Record world : Type := World {
  utc_clock : Z;
  effects : list event
}.

Definition log_event (ev : event) (w : world) : world :=
  World (utc_clock w) (effects w ++ [ev]).

(** The client bound to the facade: its capability predicate and the
    reply the remote side gives to a request/reply envelope. *)
Record RPCClient : Type := Client {
  can_send_version : string -> bool;
  reply_to : envelope -> pyval
}.

(** A prepared call context, [client.prepare(version=..., fanout=...)]. *)
Record CallContext : Type := Prepared {
  cc_client : RPCClient;
  cc_version : string;
  cc_fanout : bool
}.

Definition prepare (c : RPCClient) (version : string) (fanout : bool)
  : CallContext := Prepared c version fanout.

Definition cc_can_send_version (cctxt : CallContext) (version : string)
  : bool := can_send_version (cc_client cctxt) version.

(** ** The monad of the facade: state and exceptions *)

Definition M (A : Type) : Type := world -> result A * world.

Definition ret {A} (a : A) : M A := fun w => (Return a, w).

Definition raise {A} (e : exn) : M A := fun w => (Raise e, w).

Definition bind {A B} (m : M A) (k : A -> M B) : M B :=
  fun w =>
    match m w with
    | (Return a, w') => k a w'
    | (Raise e, w') => (Raise e, w')
    end.

Definition lift {A} (r : result A) : M A := fun w => (r, w).

Declare Scope rpc_scope.
Delimit Scope rpc_scope with rpc.
Notation "x <- m ;; k" := (bind m (fun x => k))
  (at level 100, m at next level, right associativity) : rpc_scope.
Notation "m ;;; k" := (bind m (fun _ => k))
  (at level 100, right associativity) : rpc_scope.
Open Scope rpc_scope.

Definition delivery_of (cctxt : CallContext) (reply : bool) : delivery :=
  if reply then Call else if cc_fanout cctxt then FanoutCast else Cast.

(** [cctxt.cast(ctxt, method, **kwargs)].  The client checks the version
    of the prepared context against its capability before it sends: a
    version it cannot send is refused with [RPCVersionCapError] and nothing
    leaves the process.  Failures of the message bus itself (a lost
    connection, a timeout) are not modelled. *)
Definition cast (cctxt : CallContext) (ctxt : pyval) (method : string)
    (msg_args : kwargs) : M pyval :=
  fun w =>
    if cc_can_send_version cctxt (cc_version cctxt) then
      (Return PyNone,
       log_event (Sent (Envelope ctxt (cc_version cctxt)
                          (delivery_of cctxt false) method msg_args)) w)
    else (Raise (RPCVersionCapError (cc_version cctxt)), w).

(** [cctxt.call(ctxt, method, **kwargs)], with the same check. *)
Definition call (cctxt : CallContext) (ctxt : pyval) (method : string)
    (msg_args : kwargs) : M pyval :=
  fun w =>
    if cc_can_send_version cctxt (cc_version cctxt) then
      let e := Envelope ctxt (cc_version cctxt) (delivery_of cctxt true)
                 method msg_args in
      (Return (reply_to (cc_client cctxt) e), log_event (Sent e) w)
    else (Raise (RPCVersionCapError (cc_version cctxt)), w).

(** [timeutils.utcnow()] *)
Definition utcnow : M pyval := fun w => (Return (PyDatetime (utc_clock w)), w).

(** [volume.create_worker()].  The method belongs to the volume object and
    is not among the sources; on an object the call is recorded as an
    effect on the object it is invoked on.  A value that is not an object
    with that method ([None], a number, a string, a container) has no such
    attribute, and the attribute lookup raises. *)
Definition create_worker (volume : pyval) : M pyval :=
  match volume with
  | PyObj _ => fun w => (Return PyNone, log_event (CreateWorker volume) w)
  | _ =>
      raise (AttributeError
               ("'" ++ py_type_name volume ++
                "' object has no attribute 'create_worker'"))
  end.

(** A dict display [{k1: v1, k2: v2, ...}]: keys are stored left to right,
    a later key replacing an earlier equal one. *)
Definition dict_of (items : list (string * pyval)) : kwargs :=
  foldl (fun d kv => <[fst kv := snd kv]> d) ∅ items.

(** ** Versions and the capability of the remote endpoint *)

Definition Version : Type := N * N.

Definition digit_of (c : Ascii.ascii) : option N :=
  let n := Ascii.N_of_ascii c in
  if ((48 <=? n) && (n <=? 57))%N then Some (n - 48)%N else None.

Fixpoint digits (s : string) (acc : N) : option N :=
  match s with
  | EmptyString => Some acc
  | String c rest =>
      match digit_of c with
      | Some d => digits rest (10 * acc + d)%N
      | None => None
      end
  end.

Definition parse_int (s : string) : option N :=
  match s with
  | EmptyString => None
  | _ => digits s 0%N
  end.

Fixpoint split_dot (s : string) : string * option string :=
  match s with
  | EmptyString => (EmptyString, None)
  | String c rest =>
      if Ascii.eqb c "."%char then (EmptyString, Some rest)
      else let '(a, b) := split_dot rest in (String c a, b)
  end.

Definition parse_version (s : string) : option Version :=
  match split_dot s with
  | (a, Some b) =>
      match parse_int a, parse_int b with
      | Some major, Some minor => Some (major, minor)
      | _, _ => None
      end
  | (_, None) => None
  end.

Definition version_le (a b : Version) : bool :=
  ((fst a <? fst b) || ((fst a =? fst b) && (snd a <=? snd b)))%N.

Definition version_lt (a b : Version) : bool :=
  ((fst a <? fst b) || ((fst a =? fst b) && (snd a <? snd b)))%N.

(** Modelled from the spec: the capability predicate of the messaging
    client ([can_send_version], which belongs to the transport and is not
    among the sources).  A version is a two-part identifier
    [major.minor] under a total order, the capability is the maximum
    version the remote endpoint accepts, and a candidate version is
    supported when the capability is at least that high. *)
Definition supports (cap : Version) (candidate : string) : bool :=
  match parse_version candidate with
  | Some v => version_le v cap
  | None => false
  end.

(** A client whose remote endpoint has the negotiated capability [cap]. *)
Definition capped_client (cap : Version) (reply : envelope -> pyval)
  : RPCClient := Client (supports cap) reply.

(** ** The facade *)

Record SchedulerAPI : Type := Facade { client : RPCClient }.

Definition RPC_API_VERSION : string := "3.3".
Definition RPC_DEFAULT_VERSION : string := "3.0".
Definition BINARY : string := "cinder-scheduler".

(** Modelled from the spec: [_get_cctxt] of the base class [rpc.RPCAPI],
    which is not among the sources.  It prepares a call context on the
    injected client, addressed at the requested target version, or at
    [RPC_DEFAULT_VERSION] when the caller names none. *)
Definition _get_cctxt (self : SchedulerAPI) (version : option string)
    (fanout : bool) : CallContext :=
  prepare (client self) (default RPC_DEFAULT_VERSION version) fanout.

(** The translation marker [_] leaves the message id as it is. *)
Definition i18n (msg : string) : string := msg.

Section Facade.

(** [jsonutils.to_primitive], the codec of the serialization library. *)
Variable to_primitive : pyval -> pyval.

Definition create_consistencygroup (self : SchedulerAPI) (ctxt group : pyval)
    (request_spec_list filter_properties_list : option pyval) : M pyval :=
  let request_spec_list := default PyNone request_spec_list in
  let filter_properties_list := default PyNone filter_properties_list in
  let cctxt := _get_cctxt self None false in
  rs <- lift (py_iter request_spec_list) ;;
  let request_spec_p_list := PyList (map to_primitive rs) in
  let msg_args := dict_of [
    ("group", group); ("request_spec_list", request_spec_p_list);
    ("filter_properties_list", filter_properties_list)] in
  cast cctxt ctxt "create_consistencygroup" msg_args.

Definition create_group (self : SchedulerAPI) (ctxt group : pyval)
    (group_spec request_spec_list group_filter_properties
     filter_properties_list : option pyval) : M pyval :=
  let group_spec := default PyNone group_spec in
  let request_spec_list := default PyNone request_spec_list in
  let group_filter_properties := default PyNone group_filter_properties in
  let filter_properties_list := default PyNone filter_properties_list in
  let cctxt := _get_cctxt self None false in
  rs <- lift (py_iter request_spec_list) ;;
  let request_spec_p_list := PyList (map to_primitive rs) in
  let group_spec_p := to_primitive group_spec in
  let msg_args := dict_of [
    ("group", group); ("group_spec", group_spec_p);
    ("request_spec_list", request_spec_p_list);
    ("group_filter_properties", group_filter_properties);
    ("filter_properties_list", filter_properties_list)] in
  cast cctxt ctxt "create_group" msg_args.

Definition create_volume (self : SchedulerAPI) (ctxt volume : pyval)
    (snapshot_id image_id request_spec filter_properties : option pyval)
  : M pyval :=
  let snapshot_id := default PyNone snapshot_id in
  let image_id := default PyNone image_id in
  let request_spec := default PyNone request_spec in
  let filter_properties := default PyNone filter_properties in
  create_worker volume ;;;
  let cctxt := _get_cctxt self None false in
  let msg_args := dict_of [
    ("snapshot_id", snapshot_id); ("image_id", image_id);
    ("request_spec", request_spec);
    ("filter_properties", filter_properties); ("volume", volume)] in
  cast cctxt ctxt "create_volume" msg_args.

Definition migrate_volume (self : SchedulerAPI) (ctxt volume backend : pyval)
    (force_copy request_spec filter_properties : option pyval) : M pyval :=
  let force_copy := default (PyBool false) force_copy in
  let request_spec := default PyNone request_spec in
  let filter_properties := default PyNone filter_properties in
  let request_spec_p := to_primitive request_spec in
  let msg_args := dict_of [
    ("request_spec", request_spec_p);
    ("filter_properties", filter_properties); ("volume", volume)] in
  let version := "3.3" in
  let '(version, msg_args, method) :=
    if can_send_version (client self) version then
      let msg_args := <["backend" := backend]> msg_args in
      let msg_args := <["force_copy" := force_copy]> msg_args in
      (version, msg_args, "migrate_volume")
    else
      let version := "3.0" in
      let msg_args := <["host" := backend]> msg_args in
      let msg_args := <["force_host_copy" := force_copy]> msg_args in
      (version, msg_args, "migrate_volume_to_host") in
  let cctxt := _get_cctxt self (Some version) false in
  cast cctxt ctxt method msg_args.

Definition retype (self : SchedulerAPI) (ctxt volume : pyval)
    (request_spec filter_properties : option pyval) : M pyval :=
  let request_spec := default PyNone request_spec in
  let filter_properties := default PyNone filter_properties in
  let cctxt := _get_cctxt self None false in
  let request_spec_p := to_primitive request_spec in
  let msg_args := dict_of [
    ("request_spec", request_spec_p);
    ("filter_properties", filter_properties); ("volume", volume)] in
  cast cctxt ctxt "retype" msg_args.

Definition manage_existing (self : SchedulerAPI) (ctxt volume : pyval)
    (request_spec filter_properties : option pyval) : M pyval :=
  let request_spec := default PyNone request_spec in
  let filter_properties := default PyNone filter_properties in
  let cctxt := _get_cctxt self None false in
  let request_spec_p := to_primitive request_spec in
  let msg_args := dict_of [
    ("request_spec", request_spec_p);
    ("filter_properties", filter_properties); ("volume", volume)] in
  cast cctxt ctxt "manage_existing" msg_args.

Definition extend_volume (self : SchedulerAPI)
    (ctxt volume new_size reservations request_spec : pyval)
    (filter_properties : option pyval) : M pyval :=
  let filter_properties := default PyNone filter_properties in
  let cctxt := _get_cctxt self None false in
  if negb (cc_can_send_version cctxt "3.2") then
    let msg := i18n ("extend_volume requires cinder-scheduler " ++
                     "RPC API version >= 3.2.") in
    raise (ServiceTooOld msg)
  else
    let request_spec_p := to_primitive request_spec in
    let msg_args := dict_of [
      ("volume", volume);
      ("new_size", new_size);
      ("reservations", reservations);
      ("request_spec", request_spec_p);
      ("filter_properties", filter_properties)] in
    cast cctxt ctxt "extend_volume" msg_args.

Definition get_pools (self : SchedulerAPI) (ctxt : pyval)
    (filters : option pyval) : M pyval :=
  let filters := default PyNone filters in
  let cctxt := _get_cctxt self None false in
  call cctxt ctxt "get_pools" (dict_of [("filters", filters)]).

Definition update_service_capabilities (self : SchedulerAPI)
    (ctxt service_name host capabilities cluster_name : pyval)
    (timestamp : option pyval) : M pyval :=
  let timestamp := default PyNone timestamp in
  let msg_args := dict_of [
    ("service_name", service_name); ("host", host);
    ("capabilities", capabilities)] in
  let version := "3.3" in
  chosen <-
    (if can_send_version (client self) version then
       timestamp <- (if py_truthy timestamp then ret timestamp
                     else utcnow) ;;
       let msg_args := <["cluster_name" := cluster_name]> msg_args in
       let msg_args :=
         <["timestamp" := to_primitive timestamp]> msg_args in
       ret (version, msg_args)
     else
       let version := "3.0" in
       ret (version, msg_args)) ;;
  let '(version, msg_args) := chosen in
  let cctxt := _get_cctxt self (Some version) true in
  cast cctxt ctxt "update_service_capabilities" msg_args ;;;
  ret PyNone.

Definition notify_service_capabilities (self : SchedulerAPI)
    (ctxt service_name host capabilities : pyval) : M pyval :=
  let cctxt := _get_cctxt self (Some "3.1") false in
  if negb (cc_can_send_version cctxt "3.1") then
    let msg := i18n ("notify_service_capabilities requires " ++
                     "cinder-scheduler RPC API version >= 3.1.") in
    raise (ServiceTooOld msg)
  else
    cast cctxt ctxt "notify_service_capabilities"
      (dict_of [("service_name", service_name); ("host", host);
                ("capabilities", capabilities)]) ;;;
    ret PyNone.

End Facade.

(** ** The public interface as data *)

(** One constructor per public method, carrying the arguments of the
    call; an optional argument left out by the caller is [None]. *)
Inductive request : Type :=
  | CreateConsistencygroup (ctxt group : pyval)
      (request_spec_list filter_properties_list : option pyval)
  | CreateGroup (ctxt group : pyval)
      (group_spec request_spec_list group_filter_properties
       filter_properties_list : option pyval)
  | CreateVolume (ctxt volume : pyval)
      (snapshot_id image_id request_spec filter_properties : option pyval)
  | MigrateVolume (ctxt volume backend : pyval)
      (force_copy request_spec filter_properties : option pyval)
  | Retype (ctxt volume : pyval)
      (request_spec filter_properties : option pyval)
  | ManageExisting (ctxt volume : pyval)
      (request_spec filter_properties : option pyval)
  | ExtendVolume (ctxt volume new_size reservations request_spec : pyval)
      (filter_properties : option pyval)
  | GetPools (ctxt : pyval) (filters : option pyval)
  | UpdateServiceCapabilities
      (ctxt service_name host capabilities cluster_name : pyval)
      (timestamp : option pyval)
  | NotifyServiceCapabilities (ctxt service_name host capabilities : pyval).

Definition dispatch (to_primitive : pyval -> pyval) (self : SchedulerAPI)
    (r : request) : M pyval :=
  match r with
  | CreateConsistencygroup ctxt group rsl fpl =>
      create_consistencygroup to_primitive self ctxt group rsl fpl
  | CreateGroup ctxt group gs rsl gfp fpl =>
      create_group to_primitive self ctxt group gs rsl gfp fpl
  | CreateVolume ctxt volume sid iid rs fp =>
      create_volume self ctxt volume sid iid rs fp
  | MigrateVolume ctxt volume backend fc rs fp =>
      migrate_volume to_primitive self ctxt volume backend fc rs fp
  | Retype ctxt volume rs fp => retype to_primitive self ctxt volume rs fp
  | ManageExisting ctxt volume rs fp =>
      manage_existing to_primitive self ctxt volume rs fp
  | ExtendVolume ctxt volume new_size reservations rs fp =>
      extend_volume to_primitive self ctxt volume new_size reservations rs fp
  | GetPools ctxt filters => get_pools self ctxt filters
  | UpdateServiceCapabilities ctxt service_name host capabilities
      cluster_name timestamp =>
      update_service_capabilities to_primitive self ctxt service_name host
        capabilities cluster_name timestamp
  | NotifyServiceCapabilities ctxt service_name host capabilities =>
      notify_service_capabilities self ctxt service_name host capabilities
  end.

(** ** Observing one invocation *)

(** The effects an invocation started in [w] adds to the log. *)
Definition new_effects {A} (m : M A) (w : world) : list event :=
  drop (length (effects w)) (effects (snd (m w))).

Definition sent_envelope (ev : event) : option envelope :=
  match ev with
  | Sent e => Some e
  | CreateWorker _ => None
  end.

(** The argument mappings of the envelopes an invocation builds. *)
Definition built_args {A} (m : M A) (w : world) : list kwargs :=
  env_args <$> omap sent_envelope (new_effects m w).


(** Whether the method reads the clock: only the capability announcement
    does, in the newer shape and without a usable timestamp of its own. *)
Definition reads_clock (self : SchedulerAPI) (r : request) : bool :=
  match r with
  | UpdateServiceCapabilities _ _ _ _ _ timestamp =>
      can_send_version (client self) "3.3"
      && negb (py_truthy (default PyNone timestamp))
  | _ => false
  end.

(** The request context the caller passes with a request. *)
Definition request_ctxt (r : request) : pyval :=
  match r with
  | CreateConsistencygroup ctxt _ _ _ | CreateGroup ctxt _ _ _ _ _
  | CreateVolume ctxt _ _ _ _ _ | MigrateVolume ctxt _ _ _ _ _
  | Retype ctxt _ _ _ | ManageExisting ctxt _ _ _
  | ExtendVolume ctxt _ _ _ _ _ | GetPools ctxt _
  | UpdateServiceCapabilities ctxt _ _ _ _ _
  | NotifyServiceCapabilities ctxt _ _ _ => ctxt
  end.

(** The name of the public method a request stands for. *)
Definition request_name (r : request) : string :=
  match r with
  | CreateConsistencygroup _ _ _ _ => "create_consistencygroup"
  | CreateGroup _ _ _ _ _ _ => "create_group"
  | CreateVolume _ _ _ _ _ _ => "create_volume"
  | MigrateVolume _ _ _ _ _ _ => "migrate_volume"
  | Retype _ _ _ _ => "retype"
  | ManageExisting _ _ _ _ => "manage_existing"
  | ExtendVolume _ _ _ _ _ _ => "extend_volume"
  | GetPools _ _ => "get_pools"
  | UpdateServiceCapabilities _ _ _ _ _ _ => "update_service_capabilities"
  | NotifyServiceCapabilities _ _ _ _ => "notify_service_capabilities"
  end.

(** The delivery each method uses: [call] in [get_pools], a cast on a
    context prepared with [fanout=True] in [update_service_capabilities],
    a plain cast everywhere else. *)
Definition request_mode (r : request) : delivery :=
  match r with
  | GetPools _ _ => Call
  | UpdateServiceCapabilities _ _ _ _ _ _ => FanoutCast
  | _ => Cast
  end.


(** The [timestamp] argument of the envelope an invocation builds. *)
Definition sent_timestamp {A} (m : M A) (w : world) : option pyval :=
  built_args m w !! 0%nat ≫= (fun msg_args => msg_args !! "timestamp").

(** The reading of "the generated timestamps never decrease", for the
    codec [to_primitive]: when an announcement without a timestamp of the
    caller's is repeated against a client that can send 3.3, the second
    call starting from the log the first has left, the clock reading in
    the second timestamp is not below the one in the first. *)
Definition timestamps_never_decrease (to_primitive : pyval -> pyval) : Prop :=
  forall (self : SchedulerAPI)
         (ctxt service_name host capabilities cluster_name : pyval)
         (w1 w2 : world) (t1 t2 : Z),
    can_send_version (client self) "3.3" = true ->
    effects w2
    = effects (snd (update_service_capabilities to_primitive self ctxt
                      service_name host capabilities cluster_name None w1)) ->
    sent_timestamp
      (update_service_capabilities to_primitive self ctxt service_name host
         capabilities cluster_name None) w1
    = Some (to_primitive (PyDatetime t1)) ->
    sent_timestamp
      (update_service_capabilities to_primitive self ctxt service_name host
         capabilities cluster_name None) w2
    = Some (to_primitive (PyDatetime t2)) ->
    (t1 <= t2)%Z.

(** ** A codec and a client to run the facade on *)

(** A codec in the manner of [to_primitive]: primitive values are kept,
    containers are converted element by element, a datetime is rendered
    as text and an object handle as a number. *)
Fixpoint sample_to_primitive (v : pyval) : pyval :=
  match v with
  | PyList items => PyList (map sample_to_primitive items)
  | PyDict items =>
      PyDict (map (fun kv => (fst kv, sample_to_primitive (snd kv))) items)
  | PyDatetime t => PyStr (pretty t)
  | PyObj handle => PyInt (Z.pos handle)
  | _ => v
  end.

Definition no_reply : envelope -> pyval := fun _ => PyNone.

Definition pools_reply : envelope -> pyval :=
  fun e => PyList [PyStr (env_method e)].

Definition world0 : world := World 1700000000 [].

(** ** Basic facts *)

Lemma version_le_lt (a b : Version) : version_le a b = negb (version_lt b a).
Proof.
  destruct a as [a1 a2], b as [b1 b2]; unfold version_le, version_lt; simpl.
  destruct (N.ltb_spec a1 b1), (N.eqb_spec a1 b1), (N.leb_spec a2 b2),
    (N.ltb_spec b1 a1), (N.eqb_spec b1 a1), (N.ltb_spec b2 a2);
    simpl; try reflexivity; lia.
Qed.

Lemma supports_parsed cap candidate v :
  parse_version candidate = Some v ->
  supports cap candidate = version_le v cap.
Proof. intros H. unfold supports. now rewrite H. Qed.

Lemma supports_below cap candidate v :
  parse_version candidate = Some v ->
  version_lt cap v = true -> supports cap candidate = false.
Proof.
  intros Hp Hlt. rewrite (supports_parsed _ _ _ Hp), version_le_lt, Hlt.
  reflexivity.
Qed.

Lemma new_effects_log {A} (m : M A) (w : world) (r : result A) evs :
  m w = (r, World (utc_clock w) (effects w ++ evs)) ->
  new_effects m w = evs.
Proof.
  intros H. unfold new_effects. rewrite H. simpl.
  apply drop_app_length.
Qed.

Lemma world_eta w : w = World (utc_clock w) (effects w ++ []).
Proof. destruct w; simpl. now rewrite app_nil_r. Qed.

Lemma drop_own_length {A} (l : list A) : drop (length l) l = [].
Proof. now apply drop_all. Qed.

Lemma drop_app_two {A} (l : list A) (a b : A) :
  drop (length l) ((l ++ [a]) ++ [b]) = [a; b].
Proof. rewrite <- app_assoc. apply drop_app_length. Qed.

Lemma py_iter_raises (v : pyval) (err : exn) :
  py_iter v = Raise err -> exists msg : string, err = TypeError msg.
Proof. destruct v; simpl; intros [=]; subst; eauto. Qed.

(** Evaluation of one invocation down to the events it adds. *)
Ltac run_method :=
  unfold new_effects, dispatch, create_consistencygroup, create_group,
    create_volume, migrate_volume, retype, manage_existing, extend_volume,
    get_pools, update_service_capabilities, notify_service_capabilities,
    bind, lift, raise, ret, cast, call, utcnow, log_event,
    cc_can_send_version, _get_cctxt, prepare, i18n, RPC_DEFAULT_VERSION in *;
  simpl in *.

Ltac settle_log :=
  simpl in *;
  rewrite ?drop_app_two, ?drop_app_length, ?drop_own_length in *.

Ltac split_cases :=
  repeat match goal with
         | H : context [if can_send_version ?c ?v then _ else _] |- _ =>
             destruct (can_send_version c v) eqn:?; simpl in H
         | H : context [negb (can_send_version ?c ?v)] |- _ =>
             destruct (can_send_version c v) eqn:?; simpl in H
         | H : context [match py_iter ?x with _ => _ end] |- _ =>
             destruct (py_iter x) eqn:?; simpl in H
         | H : context [if py_truthy ?x then _ else _] |- _ =>
             destruct (py_truthy x) eqn:?; simpl in H
         | H : context [create_worker ?v] |- _ =>
             destruct v; unfold create_worker, raise, log_event in H;
             simpl in H
         end.

Ltac pick_sent H :=
  repeat match type of H with
         | _ ∈ [] => apply elem_of_nil in H; destruct H
         | _ ∈ _ :: _ => apply elem_of_cons in H; destruct H as [H | H]
         | Sent _ = Sent _ => injection H as ->
         | Sent _ = CreateWorker _ => discriminate H
         end.

Section Gates.

Variable to_primitive : pyval -> pyval.

(** The hard gate of [extend_volume], on the client's own predicate. *)
Lemma extend_volume_gate self ctxt volume new_size reservations
    request_spec filter_properties w :
  can_send_version (client self) "3.2" = false ->
  extend_volume to_primitive self ctxt volume new_size reservations
    request_spec filter_properties w
  = (Raise (ServiceTooOld
       "extend_volume requires cinder-scheduler RPC API version >= 3.2."),
     w).
Proof.
  intros Hcap. unfold extend_volume, cc_can_send_version, _get_cctxt.
  simpl. rewrite Hcap. reflexivity.
Qed.

Lemma notify_service_capabilities_gate self ctxt service_name host
    capabilities w :
  notify_service_capabilities self ctxt service_name host capabilities w
  = if can_send_version (client self) "3.1" then
      (Return PyNone,
       log_event (Sent (Envelope ctxt "3.1" Cast
         "notify_service_capabilities"
         (dict_of [("service_name", service_name); ("host", host);
                   ("capabilities", capabilities)]))) w)
    else
      (Raise (ServiceTooOld
         ("notify_service_capabilities requires " ++
          "cinder-scheduler RPC API version >= 3.1.")), w).
Proof.
  unfold notify_service_capabilities, bind, cast, cc_can_send_version,
    _get_cctxt.
  simpl. destruct (can_send_version (client self) "3.1") eqn:Hcap; simpl;
    rewrite ?Hcap; reflexivity.
Qed.

(** [migrate_volume] on the client's own predicate: the newer shape when
    3.3 can be sent, the legacy shape at 3.0 when it cannot, and the
    client's refusal of 3.0 when that cannot be sent either. *)
Lemma migrate_volume_run self ctxt volume backend force_copy request_spec
    filter_properties w :
  migrate_volume to_primitive self ctxt volume backend force_copy
    request_spec filter_properties w
  = if can_send_version (client self) "3.3" then
      (Return PyNone,
       log_event (Sent (Envelope ctxt "3.3" Cast "migrate_volume"
         (dict_of [
            ("request_spec", to_primitive (default PyNone request_spec));
            ("filter_properties", default PyNone filter_properties);
            ("volume", volume); ("backend", backend);
            ("force_copy", default (PyBool false) force_copy)]))) w)
    else if can_send_version (client self) "3.0" then
      (Return PyNone,
       log_event (Sent (Envelope ctxt "3.0" Cast "migrate_volume_to_host"
         (dict_of [
            ("request_spec", to_primitive (default PyNone request_spec));
            ("filter_properties", default PyNone filter_properties);
            ("volume", volume); ("host", backend);
            ("force_host_copy", default (PyBool false) force_copy)]))) w)
    else (Raise (RPCVersionCapError "3.0"), w).
Proof.
  unfold migrate_volume, cast, cc_can_send_version, _get_cctxt.
  destruct (can_send_version (client self) "3.3") eqn:H33; simpl.
  - rewrite ?H33. reflexivity.
  - destruct (can_send_version (client self) "3.0"); reflexivity.
Qed.

(** [update_service_capabilities] on the client's own predicate. *)
Lemma update_service_capabilities_run self ctxt service_name host
    capabilities cluster_name timestamp w :
  update_service_capabilities to_primitive self ctxt service_name host
    capabilities cluster_name timestamp w
  = if can_send_version (client self) "3.3" then
      (Return PyNone,
       log_event (Sent (Envelope ctxt "3.3" FanoutCast
         "update_service_capabilities"
         (dict_of [
            ("service_name", service_name); ("host", host);
            ("capabilities", capabilities);
            ("cluster_name", cluster_name);
            ("timestamp",
             to_primitive
               (if py_truthy (default PyNone timestamp)
                then default PyNone timestamp
                else PyDatetime (utc_clock w)))]))) w)
    else if can_send_version (client self) "3.0" then
      (Return PyNone,
       log_event (Sent (Envelope ctxt "3.0" FanoutCast
         "update_service_capabilities"
         (dict_of [
            ("service_name", service_name); ("host", host);
            ("capabilities", capabilities)]))) w)
    else (Raise (RPCVersionCapError "3.0"), w).
Proof.
  unfold update_service_capabilities, bind, cast, cc_can_send_version,
    _get_cctxt.
  destruct (can_send_version (client self) "3.3") eqn:H33; simpl.
  - destruct (py_truthy (default PyNone timestamp)); simpl;
      rewrite ?H33; reflexivity.
  - destruct (can_send_version (client self) "3.0"); reflexivity.
Qed.

End Gates.

(** ** Hard gates *)

(** C1: every call of [extend_volume] against a negotiated capability below
    version 3.2 raises [ServiceTooOld], and it does so before anything is
    handed to the messaging client: the world, and with it the log of
    casts and calls, is left exactly as it was. *)
Theorem extend_volume_too_old (to_primitive : pyval -> pyval) (cap : Version)
    (reply : envelope -> pyval)
    (ctxt volume new_size reservations request_spec : pyval)
    (filter_properties : option pyval) (w : world) :
  version_lt cap (3, 2)%N = true ->
  extend_volume to_primitive (Facade (capped_client cap reply)) ctxt volume
    new_size reservations request_spec filter_properties w
  = (Raise (ServiceTooOld
       "extend_volume requires cinder-scheduler RPC API version >= 3.2."),
     w).
Proof.
  intros Hbelow. apply extend_volume_gate. simpl.
  now apply (supports_below cap "3.2" (3, 2)%N).
Qed.

Lemma extend_volume_too_old_witness :
  version_lt (3, 1)%N (3, 2)%N = true /\
  extend_volume sample_to_primitive (Facade (capped_client (3, 1)%N no_reply))
    (PyObj 1) (PyObj 2) (PyInt 20) (PyList []) (PyDict []) None world0
  = (Raise (ServiceTooOld
       "extend_volume requires cinder-scheduler RPC API version >= 3.2."),
     world0).
Proof.
  split; [reflexivity |].
  apply (extend_volume_too_old sample_to_primitive (3, 1)%N). reflexivity.
Defined.

(** C3: [notify_service_capabilities] is gated on "at least 3.1".  Against
    every capability that is 3.1 or higher, so in particular against 3.1
    itself, it returns and hands the client exactly one cast, at version
    3.1; against every capability strictly below 3.1 it raises
    [ServiceTooOld] and leaves the world as it was. *)
Theorem notify_service_capabilities_boundary (reply : envelope -> pyval)
    (ctxt service_name host capabilities : pyval) (w : world) :
  (forall cap : Version,
     version_le (3, 1)%N cap = true ->
     notify_service_capabilities (Facade (capped_client cap reply)) ctxt
       service_name host capabilities w
     = (Return PyNone,
        log_event (Sent (Envelope ctxt "3.1" Cast
          "notify_service_capabilities"
          (dict_of [("service_name", service_name); ("host", host);
                    ("capabilities", capabilities)]))) w))
  /\ version_le (3, 1)%N (3, 1)%N = true
  /\ (forall cap : Version,
        version_lt cap (3, 1)%N = true ->
        notify_service_capabilities (Facade (capped_client cap reply)) ctxt
          service_name host capabilities w
        = (Raise (ServiceTooOld
             "notify_service_capabilities requires cinder-scheduler RPC API version >= 3.1."),
           w)).
Proof.
  split; [| split; [reflexivity |]]; intros cap Hcap;
    rewrite notify_service_capabilities_gate; simpl.
  - rewrite (supports_parsed cap "3.1" (3, 1)%N eq_refl), Hcap. reflexivity.
  - rewrite (supports_below cap "3.1" (3, 1)%N eq_refl Hcap). reflexivity.
Qed.

Lemma notify_service_capabilities_boundary_witness :
  notify_service_capabilities (Facade (capped_client (3, 1)%N no_reply))
    (PyObj 1) (PyStr "cinder-volume") (PyStr "host1") (PyDict []) world0
  = (Return PyNone,
     World 1700000000
       [Sent (Envelope (PyObj 1) "3.1" Cast "notify_service_capabilities"
          (dict_of [("service_name", PyStr "cinder-volume");
                    ("host", PyStr "host1"); ("capabilities", PyDict [])]))])
  /\ notify_service_capabilities (Facade (capped_client (3, 0)%N no_reply))
       (PyObj 1) (PyStr "cinder-volume") (PyStr "host1") (PyDict []) world0
     = (Raise (ServiceTooOld
          "notify_service_capabilities requires cinder-scheduler RPC API version >= 3.1."),
        world0).
Proof.
  destruct (notify_service_capabilities_boundary no_reply (PyObj 1)
              (PyStr "cinder-volume") (PyStr "host1") (PyDict []) world0)
    as (Hok & _ & Hold).
  split.
  - apply (Hok (3, 1)%N). reflexivity.
  - apply (Hold (3, 0)%N). reflexivity.
Defined.

(** ** The group methods and their default *)

(** C9: a call of [create_consistencygroup] or of [create_group] that leaves
    [request_spec_list] at its default [None] fails with a [TypeError],
    raised by the iteration over [None], and the world is left as it was:
    nothing has been handed to the messaging client. *)
Theorem group_methods_default_unusable (to_primitive : pyval -> pyval)
    (self : SchedulerAPI) (ctxt group : pyval)
    (group_spec group_filter_properties filter_properties_list : option pyval)
    (w : world) :
  create_consistencygroup to_primitive self ctxt group None
    filter_properties_list w
  = (Raise (TypeError "'NoneType' object is not iterable"), w)
  /\ create_group to_primitive self ctxt group group_spec None
       group_filter_properties filter_properties_list w
     = (Raise (TypeError "'NoneType' object is not iterable"), w).
Proof. split; reflexivity. Qed.

(** ** Soft fallback of [migrate_volume] *)

(** Against an endpoint whose capability is 2.3, [migrate_volume] raises:
    3.3 cannot be sent, the legacy envelope is addressed at 3.0, the client
    refuses that version as well, and nothing is sent. *)
Lemma migrate_volume_refused_below_3_0 :
  supports (2, 3)%N "3.3" = false
  /\ migrate_volume sample_to_primitive
       (Facade (capped_client (2, 3)%N no_reply)) (PyObj 1) (PyObj 2)
       (PyStr "backendA") (Some (PyBool true)) None None world0
     = (Raise (RPCVersionCapError "3.0"), world0).
Proof. split; reflexivity. Qed.

(** C2, amended: the outcome of [migrate_volume] is decided by the
    capability predicate alone.  When version 3.3 can be sent, the call
    returns after one cast of [migrate_volume] at version 3.3, with the
    destination under [backend] and the flag under [force_copy].  When 3.3
    cannot be sent but 3.0 can, it returns after one cast of
    [migrate_volume_to_host] at version 3.0, with the same destination
    under [host] and the same flag under [force_host_copy].  The names of
    one shape never occur in the other, and no error is raised in either of
    these cases.  When neither version can be sent, the client's refusal of
    version 3.0 reaches the caller and nothing is sent. *)
Theorem migrate_volume_two_shapes (to_primitive : pyval -> pyval)
    (self : SchedulerAPI) (ctxt volume backend : pyval)
    (force_copy request_spec filter_properties : option pyval) (w : world) :
  let newer_args :=
    dict_of [
      ("request_spec", to_primitive (default PyNone request_spec));
      ("filter_properties", default PyNone filter_properties);
      ("volume", volume); ("backend", backend);
      ("force_copy", default (PyBool false) force_copy)] in
  let legacy_args :=
    dict_of [
      ("request_spec", to_primitive (default PyNone request_spec));
      ("filter_properties", default PyNone filter_properties);
      ("volume", volume); ("host", backend);
      ("force_host_copy", default (PyBool false) force_copy)] in
  migrate_volume to_primitive self ctxt volume backend force_copy
    request_spec filter_properties w
  = (if can_send_version (client self) "3.3" then
       (Return PyNone,
        log_event (Sent (Envelope ctxt "3.3" Cast "migrate_volume"
                           newer_args)) w)
     else if can_send_version (client self) "3.0" then
       (Return PyNone,
        log_event (Sent (Envelope ctxt "3.0" Cast "migrate_volume_to_host"
                           legacy_args)) w)
     else (Raise (RPCVersionCapError "3.0"), w))
  /\ dom newer_args
     = ({["request_spec"; "filter_properties"; "volume"; "backend";
          "force_copy"]} : gset string)
  /\ dom legacy_args
     = ({["request_spec"; "filter_properties"; "volume"; "host";
          "force_host_copy"]} : gset string).
Proof.
  cbv zeta. split; [apply migrate_volume_run |].
  split; unfold dict_of; simpl; rewrite !dom_insert_L, dom_empty_L;
    set_solver.
Qed.

(** The two end-to-end scenarios: one call, against capability 3.0 and
    against capability 3.3. *)
Example migrate_volume_at_3_0 :
  migrate_volume sample_to_primitive (Facade (capped_client (3, 0)%N no_reply))
    (PyObj 1) (PyObj 2) (PyStr "backendA") (Some (PyBool true)) None None
    world0
  = (Return PyNone,
     World 1700000000
       [Sent (Envelope (PyObj 1) "3.0" Cast "migrate_volume_to_host"
          (dict_of [("request_spec", PyNone); ("filter_properties", PyNone);
                    ("volume", PyObj 2); ("host", PyStr "backendA");
                    ("force_host_copy", PyBool true)]))]).
Proof. reflexivity. Qed.

Example migrate_volume_at_3_3 :
  migrate_volume sample_to_primitive (Facade (capped_client (3, 3)%N no_reply))
    (PyObj 1) (PyObj 2) (PyStr "backendA") (Some (PyBool true)) None None
    world0
  = (Return PyNone,
     World 1700000000
       [Sent (Envelope (PyObj 1) "3.3" Cast "migrate_volume"
          (dict_of [("request_spec", PyNone); ("filter_properties", PyNone);
                    ("volume", PyObj 2); ("backend", PyStr "backendA");
                    ("force_copy", PyBool true)]))]).
Proof. reflexivity. Qed.

(** C10: whenever the negotiated capability is below 3.3, whatever it is,
    the version [migrate_volume] targets is 3.0 exactly, in the legacy
    shape.  Every endpoint from 3.0 up to but not including 3.3, so 3.1 and
    3.2, is sent that one envelope at version 3.0; an endpoint below 3.0 is
    sent nothing, the client refusing the very version 3.0 the envelope is
    addressed at. *)
Theorem migrate_volume_legacy_pinned (to_primitive : pyval -> pyval)
    (cap : Version) (reply : envelope -> pyval)
    (ctxt volume backend : pyval)
    (force_copy request_spec filter_properties : option pyval) (w : world) :
  version_lt cap (3, 3)%N = true ->
  exists msg_args : kwargs,
    migrate_volume to_primitive (Facade (capped_client cap reply)) ctxt
      volume backend force_copy request_spec filter_properties w
    = (if version_le (3, 0)%N cap then
         (Return PyNone,
          log_event (Sent (Envelope ctxt "3.0" Cast "migrate_volume_to_host"
                             msg_args)) w)
       else (Raise (RPCVersionCapError "3.0"), w))
    /\ msg_args !! "host" = Some backend
    /\ msg_args !! "force_host_copy"
       = Some (default (PyBool false) force_copy)
    /\ msg_args !! "backend" = None /\ msg_args !! "force_copy" = None.
Proof.
  intros Hbelow. rewrite migrate_volume_run. simpl.
  rewrite (supports_below cap "3.3" (3, 3)%N eq_refl Hbelow).
  rewrite (supports_parsed cap "3.0" (3, 0)%N eq_refl).
  eexists. split; [reflexivity |]. repeat split.
Qed.

Lemma migrate_volume_legacy_pinned_witness :
  (version_lt (3, 1)%N (3, 3)%N = true /\
   exists msg_args : kwargs,
     migrate_volume sample_to_primitive
       (Facade (capped_client (3, 1)%N no_reply)) (PyObj 1) (PyObj 2)
       (PyStr "backendA") None None None world0
     = (Return PyNone,
        log_event (Sent (Envelope (PyObj 1) "3.0" Cast
                           "migrate_volume_to_host" msg_args)) world0)
     /\ msg_args !! "host" = Some (PyStr "backendA")
     /\ msg_args !! "force_host_copy" = Some (PyBool false)
     /\ msg_args !! "backend" = None /\ msg_args !! "force_copy" = None)
  /\
  (version_lt (3, 2)%N (3, 3)%N = true /\
   exists msg_args : kwargs,
     migrate_volume sample_to_primitive
       (Facade (capped_client (3, 2)%N no_reply)) (PyObj 1) (PyObj 2)
       (PyStr "backendA") None None None world0
     = (Return PyNone,
        log_event (Sent (Envelope (PyObj 1) "3.0" Cast
                           "migrate_volume_to_host" msg_args)) world0)
     /\ msg_args !! "host" = Some (PyStr "backendA")
     /\ msg_args !! "force_host_copy" = Some (PyBool false)
     /\ msg_args !! "backend" = None /\ msg_args !! "force_copy" = None).
Proof.
  split; (split; [reflexivity |]).
  - apply (migrate_volume_legacy_pinned sample_to_primitive (3, 1)%N).
    reflexivity.
  - apply (migrate_volume_legacy_pinned sample_to_primitive (3, 2)%N).
    reflexivity.
Defined.

(** ** The capability announcement *)

(** Against an endpoint whose capability is 2.3 the announcement is not
    sent at all: 3.3 cannot be sent, the plain envelope is addressed at
    3.0, and the client refuses that version. *)
Lemma announcement_refused_below_3_0 :
  supports (2, 3)%N "3.3" = false
  /\ update_service_capabilities sample_to_primitive
       (Facade (capped_client (2, 3)%N no_reply)) (PyObj 1)
       (PyStr "cinder-volume") (PyStr "host1") (PyDict []) (PyStr "cluster1")
       None world0
     = (Raise (RPCVersionCapError "3.0"), world0).
Proof. split; reflexivity. Qed.

(** C4, amended: when version 3.3 can be sent, [update_service_capabilities]
    returns after one fanout cast at version 3.3 whose arguments include
    [cluster_name] and [timestamp]; with no timestamp supplied the
    timestamp is the codec's image of the clock reading of the call.  When
    3.3 cannot be sent but 3.0 can, it returns after one fanout cast at
    version 3.0 that carries the three plain arguments only: neither
    [timestamp] nor [cluster_name] occurs in it.  When neither version can
    be sent, the client's refusal of version 3.0 reaches the caller and
    nothing is sent. *)
Theorem update_service_capabilities_envelope (to_primitive : pyval -> pyval)
    (self : SchedulerAPI)
    (ctxt service_name host capabilities cluster_name : pyval)
    (timestamp : option pyval) (w : world) :
  let stamp :=
    to_primitive
      match timestamp with
      | None => PyDatetime (utc_clock w)
      | Some t => if py_truthy t then t else PyDatetime (utc_clock w)
      end in
  let newer_args :=
    dict_of [("service_name", service_name); ("host", host);
             ("capabilities", capabilities);
             ("cluster_name", cluster_name); ("timestamp", stamp)] in
  let plain_args :=
    dict_of [("service_name", service_name); ("host", host);
             ("capabilities", capabilities)] in
  update_service_capabilities to_primitive self ctxt service_name host
    capabilities cluster_name timestamp w
  = (if can_send_version (client self) "3.3" then
       (Return PyNone,
        log_event (Sent (Envelope ctxt "3.3" FanoutCast
                           "update_service_capabilities" newer_args)) w)
     else if can_send_version (client self) "3.0" then
       (Return PyNone,
        log_event (Sent (Envelope ctxt "3.0" FanoutCast
                           "update_service_capabilities" plain_args)) w)
     else (Raise (RPCVersionCapError "3.0"), w))
  /\ newer_args !! "cluster_name" = Some cluster_name
  /\ newer_args !! "timestamp" = Some stamp
  /\ plain_args !! "cluster_name" = None
  /\ plain_args !! "timestamp" = None.
Proof.
  cbv zeta. split; [| repeat split].
  rewrite update_service_capabilities_run.
  destruct timestamp as [t |]; reflexivity.
Qed.

(** The announcement against capability 3.3 with no timestamp of the
    caller's, and against capability 3.2. *)
Example update_service_capabilities_at_3_3 :
  update_service_capabilities sample_to_primitive
    (Facade (capped_client (3, 3)%N no_reply)) (PyObj 1)
    (PyStr "cinder-volume") (PyStr "host1") (PyDict []) (PyStr "cluster1")
    None world0
  = (Return PyNone,
     World 1700000000
       [Sent (Envelope (PyObj 1) "3.3" FanoutCast
          "update_service_capabilities"
          (dict_of [("service_name", PyStr "cinder-volume");
                    ("host", PyStr "host1"); ("capabilities", PyDict []);
                    ("cluster_name", PyStr "cluster1");
                    ("timestamp", PyStr "1700000000")]))]).
Proof. vm_compute. reflexivity. Qed.

Example update_service_capabilities_at_3_2 :
  update_service_capabilities sample_to_primitive
    (Facade (capped_client (3, 2)%N no_reply)) (PyObj 1)
    (PyStr "cinder-volume") (PyStr "host1") (PyDict []) (PyStr "cluster1")
    None world0
  = (Return PyNone,
     World 1700000000
       [Sent (Envelope (PyObj 1) "3.0" FanoutCast
          "update_service_capabilities"
          (dict_of [("service_name", PyStr "cinder-volume");
                    ("host", PyStr "host1"); ("capabilities", PyDict [])]))]).
Proof. vm_compute. reflexivity. Qed.

(** ** Methods with a single schema variant *)

(** C5: each of the six methods with one schema variant builds one
    envelope, addressed at the default version 3.0, whose argument mapping
    is the caller's arguments under their own names, the codec applied to
    the specification arguments only: to every element of
    [request_spec_list] and to [group_spec] in the group methods, to
    [request_spec] in [retype] and [manage_existing], to nothing in
    [create_volume] and [get_pools].  The first five deliver it by cast and
    return [None]; [get_pools] delivers it by call and returns the reply
    the client gives to that envelope.  The envelope is built when the
    method gets as far as its transport call (an iterable
    [request_spec_list] in the group methods, a volume object in
    [create_volume]) and it is delivered when the client can send 3.0;
    a client that cannot refuses it. *)
Theorem single_variant_envelopes (to_primitive : pyval -> pyval)
    (self : SchedulerAPI) (ctxt group volume : pyval)
    (group_spec request_spec_list group_filter_properties
     filter_properties_list snapshot_id image_id request_spec
     filter_properties filters : option pyval) (w : world) :
  let sendable := can_send_version (client self) "3.0" in
  (forall items : list pyval,
     py_iter (default PyNone request_spec_list) = Return items ->
     create_consistencygroup to_primitive self ctxt group request_spec_list
       filter_properties_list w
     = if sendable then
         (Return PyNone,
          log_event (Sent (Envelope ctxt "3.0" Cast "create_consistencygroup"
            (dict_of [
               ("group", group);
               ("request_spec_list", PyList (map to_primitive items));
               ("filter_properties_list",
                default PyNone filter_properties_list)]))) w)
       else (Raise (RPCVersionCapError "3.0"), w))
  /\ (forall items : list pyval,
        py_iter (default PyNone request_spec_list) = Return items ->
        create_group to_primitive self ctxt group group_spec
          request_spec_list group_filter_properties filter_properties_list w
        = if sendable then
            (Return PyNone,
             log_event (Sent (Envelope ctxt "3.0" Cast "create_group"
               (dict_of [
                  ("group", group);
                  ("group_spec", to_primitive (default PyNone group_spec));
                  ("request_spec_list", PyList (map to_primitive items));
                  ("group_filter_properties",
                   default PyNone group_filter_properties);
                  ("filter_properties_list",
                   default PyNone filter_properties_list)]))) w)
          else (Raise (RPCVersionCapError "3.0"), w))
  /\ (forall handle : positive,
        volume = PyObj handle ->
        create_volume self ctxt volume snapshot_id image_id request_spec
          filter_properties w
        = if sendable then
            (Return PyNone,
             log_event (Sent (Envelope ctxt "3.0" Cast "create_volume"
               (dict_of [
                  ("snapshot_id", default PyNone snapshot_id);
                  ("image_id", default PyNone image_id);
                  ("request_spec", default PyNone request_spec);
                  ("filter_properties", default PyNone filter_properties);
                  ("volume", volume)])))
               (log_event (CreateWorker volume) w))
          else
            (Raise (RPCVersionCapError "3.0"),
             log_event (CreateWorker volume) w))
  /\ retype to_primitive self ctxt volume request_spec filter_properties w
     = (if sendable then
          (Return PyNone,
           log_event (Sent (Envelope ctxt "3.0" Cast "retype"
             (dict_of [
                ("request_spec", to_primitive (default PyNone request_spec));
                ("filter_properties", default PyNone filter_properties);
                ("volume", volume)]))) w)
        else (Raise (RPCVersionCapError "3.0"), w))
  /\ manage_existing to_primitive self ctxt volume request_spec
       filter_properties w
     = (if sendable then
          (Return PyNone,
           log_event (Sent (Envelope ctxt "3.0" Cast "manage_existing"
             (dict_of [
                ("request_spec", to_primitive (default PyNone request_spec));
                ("filter_properties", default PyNone filter_properties);
                ("volume", volume)]))) w)
        else (Raise (RPCVersionCapError "3.0"), w))
  /\ (let e := Envelope ctxt "3.0" Call "get_pools"
                 (dict_of [("filters", default PyNone filters)]) in
      get_pools self ctxt filters w
      = if sendable then
          (Return (reply_to (client self) e), log_event (Sent e) w)
        else (Raise (RPCVersionCapError "3.0"), w)).
Proof.
  cbv zeta. split; [| split; [| split; [| split; [| split]]]].
  - intros items Hiter. run_method. rewrite Hiter. simpl.
    destruct (can_send_version (client self) "3.0"); reflexivity.
  - intros items Hiter. run_method. rewrite Hiter. simpl.
    destruct (can_send_version (client self) "3.0"); reflexivity.
  - intros handle ->. run_method. unfold create_worker, log_event. simpl.
    destruct (can_send_version (client self) "3.0"); reflexivity.
  - run_method.
    destruct (can_send_version (client self) "3.0"); reflexivity.
  - run_method.
    destruct (can_send_version (client self) "3.0"); reflexivity.
  - run_method.
    destruct (can_send_version (client self) "3.0"); reflexivity.
Qed.

(** A pool listing: the caller receives what the client replies. *)
Example get_pools_reply :
  get_pools (Facade (capped_client (3, 0)%N pools_reply)) (PyObj 1)
    (Some (PyDict [("name", PyStr "pool1")])) world0
  = (Return (PyList [PyStr "get_pools"]),
     World 1700000000
       [Sent (Envelope (PyObj 1) "3.0" Call "get_pools"
          (dict_of [("filters", PyDict [("name", PyStr "pool1")])]))]).
Proof. reflexivity. Qed.

Lemma single_variant_envelopes_witness :
  py_iter (PyList [PyObj 7; PyDict [("size", PyInt 1)]])
  = Return [PyObj 7; PyDict [("size", PyInt 1)]]
  /\ create_consistencygroup sample_to_primitive
       (Facade (capped_client (3, 0)%N no_reply)) (PyObj 1) (PyObj 2)
       (Some (PyList [PyObj 7; PyDict [("size", PyInt 1)]])) None world0
     = (Return PyNone,
        log_event (Sent (Envelope (PyObj 1) "3.0" Cast
          "create_consistencygroup"
          (dict_of [
             ("group", PyObj 2);
             ("request_spec_list",
              PyList [PyInt 7; PyDict [("size", PyInt 1)]]);
             ("filter_properties_list", PyNone)]))) world0)
  /\ create_group sample_to_primitive
       (Facade (capped_client (3, 0)%N no_reply)) (PyObj 1) (PyObj 2)
       (Some (PyObj 3))
       (Some (PyList [PyObj 7; PyDict [("size", PyInt 1)]])) None None world0
     = (Return PyNone,
        log_event (Sent (Envelope (PyObj 1) "3.0" Cast "create_group"
          (dict_of [
             ("group", PyObj 2); ("group_spec", PyInt 3);
             ("request_spec_list",
              PyList [PyInt 7; PyDict [("size", PyInt 1)]]);
             ("group_filter_properties", PyNone);
             ("filter_properties_list", PyNone)]))) world0)
  /\ create_volume (Facade (capped_client (3, 0)%N no_reply)) (PyObj 1)
       (PyObj 4) None None None None world0
     = (Return PyNone,
        log_event (Sent (Envelope (PyObj 1) "3.0" Cast "create_volume"
          (dict_of [
             ("snapshot_id", PyNone); ("image_id", PyNone);
             ("request_spec", PyNone); ("filter_properties", PyNone);
             ("volume", PyObj 4)])))
          (log_event (CreateWorker (PyObj 4)) world0)).
Proof.
  destruct (single_variant_envelopes sample_to_primitive
              (Facade (capped_client (3, 0)%N no_reply)) (PyObj 1) (PyObj 2)
              (PyObj 4) (Some (PyObj 3))
              (Some (PyList [PyObj 7; PyDict [("size", PyInt 1)]]))
              None None None None None None None world0)
    as (Hcg & Hg & Hcv & _).
  split; [reflexivity |]. split; [| split].
  - apply (Hcg [PyObj 7; PyDict [("size", PyInt 1)]]). reflexivity.
  - apply (Hg [PyObj 7; PyDict [("size", PyInt 1)]]). reflexivity.
  - apply (Hcv 4%positive). reflexivity.
Defined.

(** ** Effects of an invocation *)



(** ** Repeatable construction *)

(** Two announcements with the same arguments against the same capability,
    a minute apart: the argument mappings differ in their timestamp. *)
Lemma announcement_args_follow_clock :
  built_args
    (dispatch sample_to_primitive (Facade (capped_client (3, 3)%N no_reply))
       (UpdateServiceCapabilities (PyObj 1) (PyStr "cinder-volume")
          (PyStr "host1") (PyDict []) (PyStr "cluster1") None))
    (World 1700000000 [])
  <> built_args
       (dispatch sample_to_primitive
          (Facade (capped_client (3, 3)%N no_reply))
          (UpdateServiceCapabilities (PyObj 1) (PyStr "cinder-volume")
             (PyStr "host1") (PyDict []) (PyStr "cluster1") None))
       (World 1700000060 []).
Proof.
  intros Heq.
  apply (f_equal (fun l : list kwargs =>
                    (l !! 0%nat) ≫= (fun d => d !! "timestamp"))) in Heq.
  vm_compute in Heq. discriminate Heq.
Qed.

Lemma built_args_log {A} (m : M A) (w : world) (r : result A) evs :
  m w = (r, World (utc_clock w) (effects w ++ evs)) ->
  built_args m w = env_args <$> omap sent_envelope evs.
Proof.
  intros H. unfold built_args. now rewrite (new_effects_log m w r evs H).
Qed.

(** Started from two worlds, a method comes to the same result and adds
    the same events, as long as the two clock readings agree where the
    clock is read. *)
Lemma dispatch_log_pair (to_primitive : pyval -> pyval)
    (self : SchedulerAPI) (r : request) (w1 w2 : world) :
  (reads_clock self r = true -> utc_clock w1 = utc_clock w2) ->
  exists (res : result pyval) (evs : list event),
    dispatch to_primitive self r w1
    = (res, World (utc_clock w1) (effects w1 ++ evs))
    /\ dispatch to_primitive self r w2
       = (res, World (utc_clock w2) (effects w2 ++ evs)).
Proof.
  intros Hclock.
  destruct r; run_method;
    try match goal with
        | |- context [create_worker ?v] =>
            destruct v; unfold create_worker, raise, log_event; simpl
        end;
    repeat match goal with
           | |- context [if can_send_version ?c ?v then _ else _] =>
               destruct (can_send_version c v) eqn:?; simpl in *
           | |- context [negb (can_send_version ?c ?v)] =>
               destruct (can_send_version c v) eqn:?; simpl in *
           | |- context [match py_iter ?x with _ => _ end] =>
               destruct (py_iter x) eqn:?; simpl in *
           | |- context [if py_truthy ?x then _ else _] =>
               destruct (py_truthy x) eqn:?; simpl in *
           end;
    try congruence;
    try (rewrite (Hclock eq_refl));
    first
      [ do 2 eexists; split; reflexivity
      | do 2 eexists; split; rewrite <- app_assoc; reflexivity
      | eexists _, []; split; f_equal; apply world_eta ].
Qed.

(** C7, amended: the argument mappings an invocation builds are a function
    of the arguments, of the capability and, for an announcement that takes
    its timestamp from the clock, of the clock reading; of nothing else.
    Two invocations with the same arguments against the same client build
    the same argument mappings from any two worlds, provided the two
    clock readings agree in the one case where the clock is read. *)
Theorem built_args_repeatable (to_primitive : pyval -> pyval)
    (self : SchedulerAPI) (r : request) (w1 w2 : world) :
  (reads_clock self r = true -> utc_clock w1 = utc_clock w2) ->
  built_args (dispatch to_primitive self r) w1
  = built_args (dispatch to_primitive self r) w2.
Proof.
  intros Hclock.
  destruct (dispatch_log_pair to_primitive self r w1 w2 Hclock)
    as (res & evs & H1 & H2).
  rewrite (built_args_log _ _ _ _ H1), (built_args_log _ _ _ _ H2).
  reflexivity.
Qed.

Lemma built_args_repeatable_witness :
  built_args
    (dispatch sample_to_primitive (Facade (capped_client (3, 3)%N no_reply))
       (UpdateServiceCapabilities (PyObj 1) (PyStr "cinder-volume")
          (PyStr "host1") (PyDict []) (PyStr "cluster1") None))
    (World 1700000000 [])
  = built_args
      (dispatch sample_to_primitive
         (Facade (capped_client (3, 3)%N no_reply))
         (UpdateServiceCapabilities (PyObj 1) (PyStr "cinder-volume")
            (PyStr "host1") (PyDict []) (PyStr "cluster1") None))
      (World 1700000000
         [Sent (Envelope (PyObj 9) "3.0" Call "get_pools"
                  (dict_of [("filters", PyNone)]))]).
Proof.
  apply (built_args_repeatable sample_to_primitive). intros _. reflexivity.
Defined.

(** ** The generated timestamp *)

(** The wall clock can step back between two announcements, and the
    timestamps follow it: a first call at clock reading 100 and a second
    one, after it, at clock reading 50 carry the timestamps of 100 and of
    50. *)
Lemma wall_clock_can_step_back :
  ~ timestamps_never_decrease sample_to_primitive.
Proof.
  intros Hmono.
  pose (self := Facade (capped_client (3, 3)%N no_reply)).
  pose (w1 := World 100 []).
  pose (w2 :=
    World 50
      (effects (snd (update_service_capabilities sample_to_primitive self
                       (PyObj 1) (PyStr "cinder-volume") (PyStr "host1")
                       (PyDict []) (PyStr "cluster1") None w1)))).
  assert (Hle : (100 <= 50)%Z); [| lia].
  apply (Hmono self (PyObj 1) (PyStr "cinder-volume") (PyStr "host1")
           (PyDict []) (PyStr "cluster1") w1 w2 100%Z 50%Z);
    vm_compute; reflexivity.
Qed.

(** C8, amended: against a client that can send 3.3 and with no timestamp
    supplied, the generated timestamp is the clock reading taken during
    the call, handed to the codec; nothing lies between the call and the
    reading.  The facade takes no step of its own to order the
    timestamps of repeated calls: they are non-decreasing whenever the
    clock readings of the calls are. *)
Theorem announcement_timestamps_follow_clock (to_primitive : pyval -> pyval)
    (self : SchedulerAPI)
    (ctxt service_name host capabilities cluster_name : pyval)
    (w1 w2 : world) :
  can_send_version (client self) "3.3" = true ->
  (utc_clock w1 <= utc_clock w2)%Z ->
  exists t1 t2 : Z,
    sent_timestamp
      (update_service_capabilities to_primitive self ctxt service_name host
         capabilities cluster_name None) w1
    = Some (to_primitive (PyDatetime t1))
    /\ sent_timestamp
         (update_service_capabilities to_primitive self ctxt service_name
            host capabilities cluster_name None) w2
       = Some (to_primitive (PyDatetime t2))
    /\ t1 = utc_clock w1 /\ t2 = utc_clock w2 /\ (t1 <= t2)%Z.
Proof.
  intros H33 Hle. exists (utc_clock w1), (utc_clock w2).
  unfold sent_timestamp.
  erewrite !built_args_log
    by (rewrite update_service_capabilities_run, H33; reflexivity).
  repeat split; assumption.
Qed.

Lemma announcement_timestamps_follow_clock_witness :
  exists t1 t2 : Z,
    sent_timestamp
      (update_service_capabilities sample_to_primitive
         (Facade (capped_client (3, 3)%N no_reply)) (PyObj 1)
         (PyStr "cinder-volume") (PyStr "host1") (PyDict [])
         (PyStr "cluster1") None) (World 100 [])
    = Some (sample_to_primitive (PyDatetime t1))
    /\ sent_timestamp
         (update_service_capabilities sample_to_primitive
            (Facade (capped_client (3, 3)%N no_reply)) (PyObj 1)
            (PyStr "cinder-volume") (PyStr "host1") (PyDict [])
            (PyStr "cluster1") None) (World 160 [])
       = Some (sample_to_primitive (PyDatetime t2))
    /\ t1 = 100%Z /\ t2 = 160%Z /\ (t1 <= t2)%Z.
Proof.
  apply (announcement_timestamps_follow_clock sample_to_primitive
           (Facade (capped_client (3, 3)%N no_reply)) (PyObj 1)
           (PyStr "cinder-volume") (PyStr "host1") (PyDict [])
           (PyStr "cluster1") (World 100 []) (World 160 [])).
  - reflexivity.
  - simpl. lia.
Defined.

(** ** Further properties of the dispatch *)

(** X1: [extend_volume] on the client's own predicate: past the gate at 3.2
    it builds one cast, and since its context is prepared without a
    version the envelope is addressed at the default 3.0, not at 3.2; the
    codec is applied to [request_spec] alone.  Short of the gate it raises
    and adds nothing.  (A client that passes the gate at 3.2 and yet cannot
    send 3.0 refuses the envelope.) *)
Theorem extend_volume_outcome (to_primitive : pyval -> pyval)
    (self : SchedulerAPI)
    (ctxt volume new_size reservations request_spec : pyval)
    (filter_properties : option pyval) (w : world) :
  extend_volume to_primitive self ctxt volume new_size reservations
    request_spec filter_properties w
  = if can_send_version (client self) "3.2" then
      if can_send_version (client self) "3.0" then
        (Return PyNone,
         log_event (Sent (Envelope ctxt "3.0" Cast "extend_volume"
           (dict_of [
              ("volume", volume); ("new_size", new_size);
              ("reservations", reservations);
              ("request_spec", to_primitive request_spec);
              ("filter_properties", default PyNone filter_properties)]))) w)
      else (Raise (RPCVersionCapError "3.0"), w)
    else
      (Raise (ServiceTooOld
         "extend_volume requires cinder-scheduler RPC API version >= 3.2."),
       w).
Proof.
  run_method.
  destruct (can_send_version (client self) "3.2"); simpl;
    [destruct (can_send_version (client self) "3.0") |]; reflexivity.
Qed.

(** X2: What every envelope of every method has in common with its request:
    it carries the caller's context untouched, it is delivered in the
    mode of its method, it is addressed at 3.0, 3.1 or 3.3 and at nothing
    else, and it is named after the method, but for the one legacy name
    [migrate_volume_to_host], used exactly when 3.3 cannot be sent. *)
Theorem sent_envelope_shape (to_primitive : pyval -> pyval)
    (self : SchedulerAPI) (r : request) (w : world) (e : envelope) :
  Sent e ∈ new_effects (dispatch to_primitive self r) w ->
  env_ctxt e = request_ctxt r
  /\ env_mode e = request_mode r
  /\ env_version e ∈ ["3.0"; "3.1"; "3.3"]
  /\ env_method e
     = match r with
       | MigrateVolume _ _ _ _ _ _ =>
           if can_send_version (client self) "3.3" then "migrate_volume"
           else "migrate_volume_to_host"
       | _ => request_name r
       end.
Proof.
  intros Hsent.
  destruct r; run_method; split_cases; settle_log; pick_sent Hsent; simpl;
    repeat split; try reflexivity; set_solver.
Qed.

Lemma sent_envelope_shape_witness :
  exists e : envelope,
    Sent e
    ∈ new_effects
        (dispatch sample_to_primitive
           (Facade (capped_client (3, 2)%N no_reply))
           (MigrateVolume (PyObj 1) (PyObj 2) (PyStr "backendA") None None
              None)) world0
    /\ env_ctxt e = PyObj 1
    /\ env_mode e = Cast
    /\ env_version e ∈ ["3.0"; "3.1"; "3.3"]
    /\ env_method e = "migrate_volume_to_host".
Proof.
  eexists. split; [vm_compute; apply list_elem_of_here |].
  apply (sent_envelope_shape sample_to_primitive
           (Facade (capped_client (3, 2)%N no_reply))
           (MigrateVolume (PyObj 1) (PyObj 2) (PyStr "backendA") None None
              None) world0).
  vm_compute. apply list_elem_of_here.
Defined.



(** X4: [ServiceTooOld] has two sources only: [extend_volume] when 3.2 cannot
    be sent and [notify_service_capabilities] when 3.1 cannot.  The
    methods that fall back to an older shape never raise it. *)
Theorem service_too_old_origin (to_primitive : pyval -> pyval)
    (self : SchedulerAPI) (r : request) (w : world) (msg : string) :
  fst (dispatch to_primitive self r w) = Raise (ServiceTooOld msg) ->
  match r with
  | ExtendVolume _ _ _ _ _ _ =>
      can_send_version (client self) "3.2" = false
  | NotifyServiceCapabilities _ _ _ _ =>
      can_send_version (client self) "3.1" = false
  | _ => False
  end.
Proof.
  intros Hraise.
  destruct r; run_method; split_cases; try discriminate Hraise;
    try reflexivity;
    injection Hraise as ->;
    match goal with
    | H : py_iter _ = Raise _ |- _ =>
        destruct (py_iter_raises _ _ H) as [? [=]]
    end.
Qed.

Lemma service_too_old_origin_witness :
  can_send_version (capped_client (3, 0)%N no_reply) "3.1" = false.
Proof.
  apply (service_too_old_origin sample_to_primitive
           (Facade (capped_client (3, 0)%N no_reply))
           (NotifyServiceCapabilities (PyObj 1) (PyStr "cinder-volume")
              (PyStr "host1") (PyDict []))
           world0
           "notify_service_capabilities requires cinder-scheduler RPC API version >= 3.1.").
  reflexivity.
Defined.



(** X6: The group methods fail exactly as the iteration over
    [request_spec_list] fails, whatever the value is that cannot be
    iterated (not only the default [None]), and they fail before anything
    is handed to the client: the world is left as it was. *)
Theorem group_methods_not_iterable (to_primitive : pyval -> pyval)
    (self : SchedulerAPI) (ctxt group : pyval)
    (group_spec request_spec_list group_filter_properties
     filter_properties_list : option pyval) (err : exn) (w : world) :
  py_iter (default PyNone request_spec_list) = Raise err ->
  create_consistencygroup to_primitive self ctxt group request_spec_list
    filter_properties_list w = (Raise err, w)
  /\ create_group to_primitive self ctxt group group_spec request_spec_list
       group_filter_properties filter_properties_list w = (Raise err, w).
Proof.
  intros Hiter. unfold create_consistencygroup, create_group, bind, lift.
  rewrite Hiter. split; reflexivity.
Qed.

Lemma group_methods_not_iterable_witness :
  create_consistencygroup sample_to_primitive
    (Facade (capped_client (3, 3)%N no_reply)) (PyObj 1) (PyObj 2)
    (Some (PyInt 5)) None world0
  = (Raise (TypeError "'int' object is not iterable"), world0)
  /\ create_group sample_to_primitive
       (Facade (capped_client (3, 3)%N no_reply)) (PyObj 1) (PyObj 2)
       (Some (PyObj 3)) (Some (PyInt 5)) None None world0
     = (Raise (TypeError "'int' object is not iterable"), world0).
Proof.
  apply (group_methods_not_iterable sample_to_primitive). reflexivity.
Defined.

(** X7: A timestamp of the caller's that is false ([0], the empty string, an
    empty container, [False]) is treated as no timestamp at all: the call
    behaves exactly like the call without one, so against a client that
    can send 3.3 the value is replaced by the clock reading. *)
Theorem false_timestamp_is_no_timestamp (to_primitive : pyval -> pyval)
    (self : SchedulerAPI)
    (ctxt service_name host capabilities cluster_name t : pyval)
    (w : world) :
  py_truthy t = false ->
  update_service_capabilities to_primitive self ctxt service_name host
    capabilities cluster_name (Some t) w
  = update_service_capabilities to_primitive self ctxt service_name host
      capabilities cluster_name None w.
Proof.
  intros Hfalse. unfold update_service_capabilities, bind. simpl.
  rewrite Hfalse. reflexivity.
Qed.

Lemma false_timestamp_is_no_timestamp_witness :
  update_service_capabilities sample_to_primitive
    (Facade (capped_client (3, 3)%N no_reply)) (PyObj 1)
    (PyStr "cinder-volume") (PyStr "host1") (PyDict []) (PyStr "cluster1")
    (Some (PyInt 0)) world0
  = update_service_capabilities sample_to_primitive
      (Facade (capped_client (3, 3)%N no_reply)) (PyObj 1)
      (PyStr "cinder-volume") (PyStr "host1") (PyDict []) (PyStr "cluster1")
      None world0.
Proof.
  apply (false_timestamp_is_no_timestamp sample_to_primitive). reflexivity.
Defined.

(** X8: The fallback of [migrate_volume] is a renaming and nothing more.
    Take one call against a client that can send 3.3 and against one that
    cannot send 3.3 but can send 3.0.  The legacy argument mapping is the newer one with [backend] stored under
    [host] and [force_copy] under [force_host_copy], and the newer one is
    recovered from the legacy one the other way round; context and
    delivery are the same. *)
Theorem migrate_fallback_renames (to_primitive : pyval -> pyval)
    (newer older : SchedulerAPI) (ctxt volume backend : pyval)
    (force_copy request_spec filter_properties : option pyval) (w : world) :
  can_send_version (client newer) "3.3" = true ->
  can_send_version (client older) "3.3" = false ->
  can_send_version (client older) "3.0" = true ->
  exists e_new e_old : envelope,
    migrate_volume to_primitive newer ctxt volume backend force_copy
      request_spec filter_properties w
    = (Return PyNone, log_event (Sent e_new) w)
    /\ migrate_volume to_primitive older ctxt volume backend force_copy
         request_spec filter_properties w
       = (Return PyNone, log_event (Sent e_old) w)
    /\ env_ctxt e_old = env_ctxt e_new /\ env_mode e_old = env_mode e_new
    /\ env_args e_old
       = <["force_host_copy" := default (PyBool false) force_copy]>
           (<["host" := backend]>
              (delete "force_copy" (delete "backend" (env_args e_new))))
    /\ env_args e_new
       = <["force_copy" := default (PyBool false) force_copy]>
           (<["backend" := backend]>
              (delete "force_host_copy" (delete "host" (env_args e_old)))).
Proof.
  intros Hnew Hold Hold0. do 2 eexists.
  rewrite !migrate_volume_run, Hnew, Hold, Hold0.
  repeat split; reflexivity.
Qed.

Lemma migrate_fallback_renames_witness :
  exists e_new e_old : envelope,
    migrate_volume sample_to_primitive
      (Facade (capped_client (3, 3)%N no_reply)) (PyObj 1) (PyObj 2)
      (PyStr "backendA") (Some (PyBool true)) None None world0
    = (Return PyNone, log_event (Sent e_new) world0)
    /\ migrate_volume sample_to_primitive
         (Facade (capped_client (3, 0)%N no_reply)) (PyObj 1) (PyObj 2)
         (PyStr "backendA") (Some (PyBool true)) None None world0
       = (Return PyNone, log_event (Sent e_old) world0)
    /\ env_ctxt e_old = env_ctxt e_new /\ env_mode e_old = env_mode e_new
    /\ env_args e_old
       = <["force_host_copy" := PyBool true]>
           (<["host" := PyStr "backendA"]>
              (delete "force_copy" (delete "backend" (env_args e_new))))
    /\ env_args e_new
       = <["force_copy" := PyBool true]>
           (<["backend" := PyStr "backendA"]>
              (delete "force_host_copy" (delete "host" (env_args e_old)))).
Proof.
  apply (migrate_fallback_renames sample_to_primitive
           (Facade (capped_client (3, 3)%N no_reply))
           (Facade (capped_client (3, 0)%N no_reply)));
    reflexivity.
Defined.

(** X9: The fallback of [update_service_capabilities] only drops.  Take one
    call against a client that can send 3.3 and against one that cannot
    send 3.3 but can send 3.0: the older argument mapping is the newer one without [cluster_name] and
    [timestamp], under the same method name and the same fanout
    delivery. *)
Theorem announcement_fallback_drops (to_primitive : pyval -> pyval)
    (newer older : SchedulerAPI)
    (ctxt service_name host capabilities cluster_name : pyval)
    (timestamp : option pyval) (w : world) :
  can_send_version (client newer) "3.3" = true ->
  can_send_version (client older) "3.3" = false ->
  can_send_version (client older) "3.0" = true ->
  exists e_new e_old : envelope,
    update_service_capabilities to_primitive newer ctxt service_name host
      capabilities cluster_name timestamp w
    = (Return PyNone, log_event (Sent e_new) w)
    /\ update_service_capabilities to_primitive older ctxt service_name host
         capabilities cluster_name timestamp w
       = (Return PyNone, log_event (Sent e_old) w)
    /\ env_method e_old = env_method e_new
    /\ env_mode e_old = env_mode e_new
    /\ env_args e_old
       = delete "timestamp" (delete "cluster_name" (env_args e_new))
    /\ dom (env_args e_new)
       = dom (env_args e_old) ∪ {["cluster_name"; "timestamp"]}.
Proof.
  intros Hnew Hold Hold0. do 2 eexists.
  rewrite !update_service_capabilities_run, Hnew, Hold, Hold0.
  split; [reflexivity |]. split; [reflexivity |].
  simpl. repeat split;
    unfold dict_of; simpl; rewrite ?dom_insert_L, ?dom_empty_L; set_solver.
Qed.

Lemma announcement_fallback_drops_witness :
  exists e_new e_old : envelope,
    update_service_capabilities sample_to_primitive
      (Facade (capped_client (3, 3)%N no_reply)) (PyObj 1)
      (PyStr "cinder-volume") (PyStr "host1") (PyDict []) (PyStr "cluster1")
      None world0
    = (Return PyNone, log_event (Sent e_new) world0)
    /\ update_service_capabilities sample_to_primitive
         (Facade (capped_client (3, 2)%N no_reply)) (PyObj 1)
         (PyStr "cinder-volume") (PyStr "host1") (PyDict [])
         (PyStr "cluster1") None world0
       = (Return PyNone, log_event (Sent e_old) world0)
    /\ env_method e_old = env_method e_new
    /\ env_mode e_old = env_mode e_new
    /\ env_args e_old
       = delete "timestamp" (delete "cluster_name" (env_args e_new))
    /\ dom (env_args e_new)
       = dom (env_args e_old) ∪ {["cluster_name"; "timestamp"]}.
Proof.
  apply (announcement_fallback_drops sample_to_primitive
           (Facade (capped_client (3, 3)%N no_reply))
           (Facade (capped_client (3, 2)%N no_reply)));
    reflexivity.
Defined.

(** X11: The one version the client ever refuses is 3.0.  Versions 3.3
    and 3.1 are put on a context only after the client has confirmed them,
    so when [RPCVersionCapError] reaches the caller of any method, it names
    version 3.0 and the client cannot send 3.0. *)
Theorem version_cap_error_origin (to_primitive : pyval -> pyval)
    (self : SchedulerAPI) (r : request) (w : world) (refused : string) :
  fst (dispatch to_primitive self r w) = Raise (RPCVersionCapError refused) ->
  refused = "3.0" /\ can_send_version (client self) "3.0" = false.
Proof.
  intros Hraise.
  destruct r; run_method; split_cases; try discriminate Hraise;
    try match goal with
        | H : py_iter _ = Raise _ |- _ =>
            destruct (py_iter_raises _ _ H) as [? ->]; discriminate Hraise
        end;
    try discriminate;
    injection Hraise as <-; split; reflexivity.
Qed.

Lemma version_cap_error_origin_witness :
  "3.0" = "3.0" /\ can_send_version (capped_client (2, 3)%N no_reply) "3.0"
                   = false.
Proof.
  apply (version_cap_error_origin sample_to_primitive
           (Facade (capped_client (2, 3)%N no_reply))
           (Retype (PyObj 1) (PyObj 2) None None) world0 "3.0").
  reflexivity.
Defined.
